(** * Page and page-type mutations (saleor/graphql/page/mutations.py)

    A shallow embedding of the GraphQL mutation classes of the page
    module: the declared arguments and input types, the input cleaning
    of every mutation, the attribute-kind validation of [PageTypeMixin],
    the duplicate check of [PageTypeUpdate] and the many-to-many save
    steps, followed by the properties of the specification.

    Python dictionaries are finite maps with string keys, exceptions are
    an explicit result type, and the rows reached through the ORM are an
    explicit store threaded through the save steps. *)

From stdpp Require Import base option list strings pretty gmap sets.

Local Open Scope string_scope.

(** ** Declarations: graphene fields, arguments and input types *)

Module Graphene.

Inductive GType :=
| ID
| String
| Boolean
| JSONString
| List (of_type : GType)
| NonNull (of_type : GType)
| Object (type_name : string).

(** A mounted graphene type: [graphene.ID(required=True, description=..)].
    graphene's default is [required=False]. *)
Record Field := mkField {
  ftype : GType;
  required : bool;
  description : string
}.

Definition field (t : GType) (d : string) : Field := mkField t false d.
Definition required_field (t : GType) (d : string) : Field := mkField t true d.

(** The type a field has in the GraphQL schema: graphene wraps the type
    of a required field in [NonNull], printed [T!]. *)
Definition schema_type (f : Field) : GType :=
  if required f then NonNull (ftype f) else ftype f.

Record InputObjectType := mkInput {
  input_name : string;
  input_fields : list (string * Field)
}.

End Graphene.

Import Graphene.

Definition SeoInput : GType := Object "SeoInput".

Definition PageInput : InputObjectType :=
  mkInput "PageInput"
    [ ("slug", field String "Page internal name.");
      ("title", field String "Page title.");
      ("content", field String
         "Page content. May consist of ordinary text, HTML and images.");
      ("content_json", field JSONString "Page content in JSON format.");
      ("is_published", field Boolean
         "Determines if page is visible in the storefront.");
      ("publication_date", field String "Publication date. ISO 8601 standard.");
      ("seo", field SeoInput "Search engine optimization fields.") ].

Definition PageTypeCreateInput : InputObjectType :=
  mkInput "PageTypeCreateInput"
    [ ("name", field String "Name of the page type.");
      ("slug", field String "Page type slug.");
      ("add_attributes", field (List (NonNull ID))
         "List of attribute IDs to be assigned to the page type.") ].

(** [class PageTypeUpdateInput(PageTypeCreateInput)]: the inherited
    fields followed by the one it declares. *)
Definition PageTypeUpdateInput : InputObjectType :=
  mkInput "PageTypeUpdateInput"
    (input_fields PageTypeCreateInput ++
     [ ("remove_attributes", field (List (NonNull ID))
          "List of attribute IDs to be assigned to the page type.") ])%list.

(** The nested [class Arguments] of a mutation. *)
Record Arguments := mkArguments {
  arg_id : option Field;
  arg_input : option (InputObjectType * Field)
}.

(** The mutation classes of the module. *)
Inductive Mutation :=
| PageCreate
| PageUpdate
| PageDelete
| PageTypeCreate
| PageTypeUpdate.

Global Instance Mutation_eq_dec : EqDecision Mutation.
Proof. solve_decision. Defined.

Definition arguments (cls : Mutation) : Arguments :=
  match cls with
  | PageCreate =>
      mkArguments None
        (Some (PageInput,
               required_field (Object "PageInput") "Fields required to create a page."))
  | PageUpdate =>
      mkArguments
        (Some (required_field ID "ID of a page to update."))
        (Some (PageInput,
               required_field (Object "PageInput") "Fields required to update a page."))
  | PageDelete =>
      mkArguments (Some (required_field ID "ID of a page to delete.")) None
  | PageTypeCreate =>
      mkArguments None
        (Some (PageTypeCreateInput,
               required_field (Object "PageTypeCreateInput")
                 "Fields required to create page type."))
  | PageTypeUpdate =>
      mkArguments
        (Some (field ID "ID of the page type to update."))
        (Some (PageTypeUpdateInput,
               required_field (Object "PageTypeUpdateInput")
                 "Fields required to update page type."))
  end.

(** The schema type of the [id] argument of a mutation, when it has one. *)
Definition id_schema_type (cls : Mutation) : option GType :=
  schema_type <$> arg_id (arguments cls).

(** The input object type read by the generic cleaner: [cls.Arguments.input]. *)
Definition input_cls (cls : Mutation) : option InputObjectType :=
  fst <$> arg_input (arguments cls).

(** ** Entities, values and validation errors *)

(** Modelled from the spec: [AttributeType] is declared in the product
    package, outside this module. "An attribute has a kind; only
    attributes of kind PAGE_TYPE may associate with a page type":
    [PAGE_TYPE] and one kind that is not. *)
Inductive AttributeType := PRODUCT_TYPE | PAGE_TYPE.

Global Instance AttributeType_eq_dec : EqDecision AttributeType.
Proof. solve_decision. Defined.

Global Program Instance AttributeType_countable : Countable AttributeType :=
  inj_countable'
    (λ t, match t with PRODUCT_TYPE => false | PAGE_TYPE => true end)
    (λ b : bool, if b then PAGE_TYPE else PRODUCT_TYPE) _.
Next Obligation. by intros []. Qed.

(** An attribute row as the mutations see it: primary key and kind. *)
Record Attribute := mkAttribute {
  pk : Z;
  type : AttributeType
}.

Global Instance Attribute_eq_dec : EqDecision Attribute.
Proof. solve_decision. Defined.

Global Program Instance Attribute_countable : Countable Attribute :=
  inj_countable' (λ a, (pk a, type a)) (λ p, mkAttribute p.1 p.2) _.
Next Obligation. by intros []. Qed.

(** Modelled from the spec: [PageErrorCode] is declared in
    page.error_codes, outside this module. "REQUIRED (missing derivable
    slug/name), INVALID (attribute of wrong kind), DUPLICATED_INPUT_ITEM
    (id in both add/remove lists)": the three codes the mutations use. *)
Inductive PageErrorCode := REQUIRED | INVALID | DUPLICATED_INPUT_ITEM.

Global Instance PageErrorCode_eq_dec : EqDecision PageErrorCode.
Proof. solve_decision. Defined.

(** What the source stores in the [code] attribute of an error: the enum
    member itself ([PageErrorCode.REQUIRED]) or its [.value]. *)
Inductive Code :=
| Member (c : PageErrorCode)
| Value (c : PageErrorCode).

Definition code_name (c : Code) : PageErrorCode :=
  match c with Member n | Value n => n end.

(** The value stored under the key "attributes" of an error's [params]. *)
Inductive Param :=
| GlobalIds (ids : list string)
| Duplicates (items : gset Attribute).

(** A single [ValidationError(message, code=.., params=..)]. *)
Record Error := mkError {
  message : string;
  code : option Code;
  params : list (string * Param)
}.

(** [error.code = c]. *)
Definition set_code (c : Code) (e : Error) : Error :=
  mkError (message e) (Some c) (params e).

Definition has_code (c : PageErrorCode) (e : Error) : Prop :=
  code_name <$> code e = Some c.

(** A raised [ValidationError]: one error, or the dictionary form built
    from a mapping of field names to errors. *)
Inductive ValidationError :=
| Single (e : Error)
| ErrorDict (error_dict : gmap string (list Error)).

(** A call either returns or raises. *)
Inductive Result (E A : Type) :=
| Ok (a : A)
| Raise (e : E).
Arguments Ok {E A} a.
Arguments Raise {E A} e.

Global Instance Result_ret {E} : MRet (Result E) := λ A a, Ok a.

Global Instance Result_bind {E} : MBind (Result E) := λ A B k r,
  match r with
  | Ok a => k a
  | Raise e => Raise e
  end.

(** The values of a cleaned-input dictionary. *)
Inductive PyValue :=
| PyNone
| PyStr (s : string)
| PyBool (b : bool)
| PyNodes (nodes : list Attribute)
| PySeo (seo_title seo_description : option string).

(** [d.get(key)] read as a list of attribute rows: [None] when the key
    is missing or holds [None]. *)
Definition get_nodes (d : gmap string PyValue) (key : string)
  : option (list Attribute) :=
  match d !! key with
  | Some (PyNodes l) => Some l
  | _ => None
  end.

(** [d.get(key)] read as a text, with Python's truthiness: a missing
    key, [None] and the empty text all count as nothing. *)
Definition get_text (d : gmap string PyValue) (key : string) : option string :=
  match d !! key with
  | Some (PyStr s) => if decide (s = "") then None else Some s
  | _ => None
  end.

(** [errors[field].append(error)] on a [defaultdict(list)]. *)
Definition append_error (errors : gmap string (list Error))
    (field : string) (error : Error) : gmap string (list Error) :=
  <[field := (default [] (errors !! field) ++ [error])%list]> errors.

(** ** The relation rows of one page type

    [page_attributes] is the many-to-many relation of the page type
    under mutation, as the set of primary keys of its attributes;
    [saved] is the row last written by a save; [calls] records the ORM
    calls in the order they were made. *)

Inductive OrmCall :=
| Save
| RelatedRemove (pks : list Z)
| RelatedAdd (pks : list Z).

Record Store := mkStore {
  saved : option (gmap string PyValue);
  page_attributes : gset Z;
  calls : list OrmCall
}.

(** [instance.page_attributes.remove] on the unpacked [attributes]. *)
Definition page_attributes_remove (attributes : list Attribute) (st : Store)
  : Store :=
  mkStore (saved st)
    (page_attributes st ∖ list_to_set (pk <$> attributes))
    (calls st ++ [RelatedRemove (pk <$> attributes)])%list.

(** [instance.page_attributes.add] on the unpacked [attributes]. *)
Definition page_attributes_add (attributes : list Attribute) (st : Store)
  : Store :=
  mkStore (saved st)
    (page_attributes st ∪ list_to_set (pk <$> attributes))
    (calls st ++ [RelatedAdd (pk <$> attributes)])%list.

(** Modelled from the spec: the save of the generic mutation base is
    not part of this module. "Persist": the cleaned fields become the
    stored row; the relation is not touched. *)
Definition save (cleaned_input : gmap string PyValue) (st : Store) : Store :=
  mkStore (Some cleaned_input) (page_attributes st) (calls st ++ [Save])%list.

(** Modelled from the spec: [get_duplicates_ids] lives in core.utils,
    outside this module. "Given two id collections, compute their
    intersection"; a collection that was not supplied has no items. *)
Definition get_duplicates_ids `{Countable A}
    (first_list second_list : option (list A)) : gset A :=
  list_to_set (default [] first_list) ∩ list_to_set (default [] second_list).

(** ** Notions used by the statements *)

(** The attributes of a supplied collection whose kind is not
    [PAGE_TYPE]; a collection that was not supplied has none. *)
Definition wrong_kind (attributes : option (list Attribute)) : list Attribute :=
  filter (λ attr, type attr ≠ PAGE_TYPE) (default [] attributes).

(** An item listed both for adding and for removing. *)
Definition in_both (add_attributes remove_attributes : option (list Attribute))
    (a : Attribute) : Prop :=
  a ∈ default [] add_attributes ∧ a ∈ default [] remove_attributes.

(** The field a slug is generated from, for the classes that clean a
    slug. *)
Definition slug_source (cls : Mutation) : option string :=
  match cls with
  | PageCreate | PageUpdate => Some "title"
  | PageTypeCreate | PageTypeUpdate => Some "name"
  | PageDelete => None
  end.

(** ** Concrete requests for the examples *)

Module Sample.

Definition attr_1 : Attribute := mkAttribute 1 PAGE_TYPE.
Definition attr_2 : Attribute := mkAttribute 2 PAGE_TYPE.
Definition attr_7 : Attribute := mkAttribute 7 PRODUCT_TYPE.

Definition to_global_id (type_name : string) (k : Z) : string :=
  type_name +:+ ":" +:+ pretty k.

Definition generate_unique_slug (_ : unit) (source : string) : string := source.

Definition slug_error : Error := mkError "This field is required." None [].

Definition clean_seo_fields (d : gmap string PyValue) : gmap string PyValue := d.

(** A generic cleaner that hands the input on as it is. *)
Definition generic_clean_input (_ : option InputObjectType) (_ _ : unit)
    (data : gmap string PyValue)
  : Result ValidationError (gmap string PyValue) := Ok data.

Definition generic_save_m2m (_ _ : unit) (_ : gmap string PyValue)
    (st : Store) : Store := st.

(** A stored page type related to attribute 1. *)
Definition store_1 : Store := mkStore (Some {[ "name" := PyStr "FAQ" ]}) {[ 1%Z ]} [].

(** A page type with no row and no relation yet. *)
Definition store_0 : Store := mkStore None ∅ [].

Definition faq_with_attr_1 : gmap string PyValue :=
  {[ "name" := PyStr "FAQ"; "add_attributes" := PyNodes [attr_1] ]}.

Definition faq_only : gmap string PyValue := {[ "name" := PyStr "FAQ" ]}.

Definition remove_attr_1 : gmap string PyValue :=
  {[ "name" := PyStr "FAQ"; "remove_attributes" := PyNodes [attr_1] ]}.

Definition add_and_remove_attr_1 : gmap string PyValue :=
  {[ "name" := PyStr "FAQ";
     "add_attributes" := PyNodes [attr_1];
     "remove_attributes" := PyNodes [attr_1] ]}.

(** Nothing to make a slug from, a product attribute to add and
    attribute 1 on both lists. *)
Definition all_wrong : gmap string PyValue :=
  {[ "add_attributes" := PyNodes [attr_1; attr_7];
     "remove_attributes" := PyNodes [attr_1] ]}.

(** Attribute 1 to add and attribute 2 to remove. *)
Definition add_1_remove_2 : gmap string PyValue :=
  {[ "name" := PyStr "FAQ";
     "add_attributes" := PyNodes [attr_1];
     "remove_attributes" := PyNodes [attr_2] ]}.

(** A stored page type related to attributes 1 and 2. *)
Definition store_12 : Store :=
  mkStore (Some {[ "name" := PyStr "FAQ" ]}) {[ 1%Z; 2%Z ]} [].

Definition no_slug_no_source : gmap string PyValue :=
  {[ "content" := PyStr "About us" ]}.

Definition titled : gmap string PyValue := {[ "title" := PyStr "About" ]}.

End Sample.

(** ** The mutation classes *)

Section Mutations.

(** The request context, the model instance handed to the hooks and the
    raw GraphQL input: the mutations only pass them on. *)
Context {Info Instance Data : Type}.

(** [graphene.Node.to_global_id(type_name, pk)]. *)
Variable to_global_id : string → Z → string.

(** The slug generator behind the slug helper (core.utils). *)
Variable generate_unique_slug : Instance → string → string.

(** The error the slug helper raises; the mutations overwrite its code. *)
Variable slug_error : Error.

(** [clean_seo_fields] (core.utils), which rewrites the dictionary it is
    given. *)
Variable clean_seo_fields : gmap string PyValue → gmap string PyValue.

(** [ModelMutation.clean_input], reached through [super()]: the generic
    cleaner works from the input type declared in the [Arguments] of the
    class it runs on. *)
Variable ModelMutation_clean_input :
  option InputObjectType → Info → Instance → Data →
  Result ValidationError (gmap string PyValue).

(** [ModelMutation._save_m2m], reached through [super()]. *)
Variable ModelMutation_save_m2m :
  Info → Instance → gmap string PyValue → Store → Store.

(** Modelled from the spec: [validate_slug_and_generate_if_needed] lives
    in core.utils, outside this module. "Output: cleaned-input with a
    valid, unique slug, generated from the source field if absent.
    Failure: raises a required validation error if neither slug nor
    source field is available." *)
Definition validate_slug_and_generate_if_needed (instance : Instance)
    (slugable_field : string) (cleaned_input : gmap string PyValue)
  : Result Error (gmap string PyValue) :=
  match get_text cleaned_input "slug" with
  | Some _ => Ok cleaned_input
  | None =>
      match get_text cleaned_input slugable_field with
      | Some source =>
          Ok (<["slug" := PyStr (generate_unique_slug instance source)]>
                cleaned_input)
      | None => Raise slug_error
      end
  end.

(** *** PageCreate *)

Definition PageCreate_clean_input (cls : Mutation) (info : Info)
    (instance : Instance) (data : Data)
  : Result ValidationError (gmap string PyValue) :=
  cleaned_input ← ModelMutation_clean_input (input_cls cls) info instance data;
  match validate_slug_and_generate_if_needed instance "title" cleaned_input with
  | Raise error =>
      let error := set_code (Member REQUIRED) error in
      Raise (ErrorDict {[ "slug" := [error] ]})
  | Ok cleaned_input => Ok (clean_seo_fields cleaned_input)
  end.

(** *** PageTypeMixin *)

Definition validate_attributes (errors : gmap string (list Error))
    (attributes : option (list Attribute)) (field : string)
  : gmap string (list Error) :=
  match attributes with
  | Some ((_ :: _) as attributes) =>
      let not_valid_attributes :=
        (λ attr, to_global_id "Attribute" (pk attr)) <$>
          filter (λ attr, type attr ≠ PAGE_TYPE) attributes in
      match not_valid_attributes with
      | _ :: _ =>
          let error :=
            mkError "Only page type attributes allowed."
              (Some (Value INVALID))
              [("attributes", GlobalIds not_valid_attributes)] in
          append_error errors field error
      | [] => errors
      end
  | _ => errors
  end.

(** *** PageTypeCreate *)

Definition PageTypeCreate_clean_input (cls : Mutation) (info : Info)
    (instance : Instance) (data : Data)
  : Result ValidationError (gmap string PyValue) :=
  cleaned_input ← ModelMutation_clean_input (input_cls cls) info instance data;
  let errors : gmap string (list Error) := ∅ in
  let '(cleaned_input, errors) :=
    match validate_slug_and_generate_if_needed instance "name" cleaned_input with
    | Ok cleaned_input => (cleaned_input, errors)
    | Raise error =>
        (cleaned_input,
         append_error errors "slug" (set_code (Value REQUIRED) error))
    end in
  let errors :=
    validate_attributes errors (get_nodes cleaned_input "add_attributes")
      "add_attributes" in
  if decide (errors = ∅) then Ok cleaned_input
  else Raise (ErrorDict errors).

Definition PageTypeCreate_save_m2m (cls : Mutation) (info : Info)
    (instance : Instance) (cleaned_data : gmap string PyValue) (st : Store)
  : Store :=
  let st := ModelMutation_save_m2m info instance cleaned_data st in
  let attributes := get_nodes cleaned_data "add_attributes" in
  match attributes with
  | Some attributes => page_attributes_add attributes st
  | None => st
  end.

(** *** PageTypeUpdate *)

Definition check_for_duplicates (errors : gmap string (list Error))
    (add_attributes remove_attributes : option (list Attribute))
  : gmap string (list Error) :=
  let duplicated_ids := get_duplicates_ids add_attributes remove_attributes in
  if decide (duplicated_ids = ∅) then errors
  else
    let error_msg :=
      "The same object cannot be in both list" +:+
      "for adding and removing items." in
    let error :=
      mkError error_msg (Some (Value DUPLICATED_INPUT_ITEM))
        [("attributes", Duplicates duplicated_ids)] in
    append_error errors "attributes" error.

Definition PageTypeUpdate_clean_input (cls : Mutation) (info : Info)
    (instance : Instance) (data : Data)
  : Result ValidationError (gmap string PyValue) :=
  cleaned_input ← ModelMutation_clean_input (input_cls cls) info instance data;
  let errors : gmap string (list Error) := ∅ in
  let '(cleaned_input, errors) :=
    match validate_slug_and_generate_if_needed instance "name" cleaned_input with
    | Ok cleaned_input => (cleaned_input, errors)
    | Raise error =>
        (cleaned_input,
         append_error errors "slug" (set_code (Member REQUIRED) error))
    end in
  let add_attributes := get_nodes cleaned_input "add_attributes" in
  let errors := validate_attributes errors add_attributes "add_attributes" in
  let remove_attributes := get_nodes cleaned_input "remove_attributes" in
  let errors :=
    validate_attributes errors remove_attributes "remove_attributes" in
  let errors :=
    check_for_duplicates errors (get_nodes cleaned_input "add_attributes")
      remove_attributes in
  if decide (errors = ∅) then Ok cleaned_input
  else Raise (ErrorDict errors).

(** The local [attributes] is bound to the "remove_attributes" entry and
    bound again to the "add_attributes" entry before its first use. *)
Definition PageTypeUpdate_save_m2m (cls : Mutation) (info : Info)
    (instance : Instance) (cleaned_data : gmap string PyValue) (st : Store)
  : Store :=
  let st := ModelMutation_save_m2m info instance cleaned_data st in
  let attributes := get_nodes cleaned_data "remove_attributes" in
  let attributes := get_nodes cleaned_data "add_attributes" in
  let st :=
    match attributes with
    | Some attributes => page_attributes_remove attributes st
    | None => st
    end in
  match attributes with
  | Some attributes => page_attributes_add attributes st
  | None => st
  end.

(** What the update step is described to do: the rows of the remove
    list leave the relation, then the rows of the add list join it. *)
Definition PageTypeUpdate_save_m2m_described (cls : Mutation) (info : Info)
    (instance : Instance) (cleaned_data : gmap string PyValue) (st : Store)
  : Store :=
  let st := ModelMutation_save_m2m info instance cleaned_data st in
  let st :=
    match get_nodes cleaned_data "remove_attributes" with
    | Some attributes => page_attributes_remove attributes st
    | None => st
    end in
  match get_nodes cleaned_data "add_attributes" with
  | Some attributes => page_attributes_add attributes st
  | None => st
  end.

(** *** Method resolution

    [PageUpdate] derives from [PageCreate]; every other class of the
    module derives from the generic bases directly. A method a class
    does not define is looked up along this order and, past it, in
    [ModelMutation]. *)

Definition mro (cls : Mutation) : list Mutation :=
  match cls with
  | PageUpdate => [PageUpdate; PageCreate]
  | _ => [cls]
  end.

Definition resolve {M : Type} (defined : Mutation → option M) (generic : M)
    (cls : Mutation) : M :=
  default generic (head (omap defined (mro cls))).

Definition defines_clean_input (c : Mutation)
  : option (Mutation → Info → Instance → Data →
            Result ValidationError (gmap string PyValue)) :=
  match c with
  | PageCreate => Some PageCreate_clean_input
  | PageTypeCreate => Some PageTypeCreate_clean_input
  | PageTypeUpdate => Some PageTypeUpdate_clean_input
  | PageUpdate | PageDelete => None
  end.

Definition defines_save_m2m (c : Mutation)
  : option (Mutation → Info → Instance → gmap string PyValue →
            Store → Store) :=
  match c with
  | PageTypeCreate => Some PageTypeCreate_save_m2m
  | PageTypeUpdate => Some PageTypeUpdate_save_m2m
  | PageCreate | PageUpdate | PageDelete => None
  end.

(** [cls.clean_input(info, instance, data)]. *)
Definition clean_input (cls : Mutation) (info : Info) (instance : Instance)
    (data : Data) : Result ValidationError (gmap string PyValue) :=
  resolve defines_clean_input
    (λ cls, ModelMutation_clean_input (input_cls cls)) cls cls info instance data.

(** [cls._save_m2m(info, instance, cleaned_data)]. *)
Definition _save_m2m (cls : Mutation) (info : Info) (instance : Instance)
    (cleaned_data : gmap string PyValue) (st : Store) : Store :=
  resolve defines_save_m2m (λ _, ModelMutation_save_m2m)
    cls cls info instance cleaned_data st.

(** *** One mutation call *)

Inductive Response :=
| Done (cleaned_input : gmap string PyValue)
| Failed (errors : ValidationError).

(** Modelled from the spec: [ModelMutation.perform_mutation] is not part
    of this module. "Validate, then (fail: aggregate errors, abort) or
    (pass: Persist, AssociateAttributes, Respond)". *)
Definition perform_mutation (cls : Mutation) (info : Info)
    (instance : Instance) (data : Data) (st : Store) : Response * Store :=
  match clean_input cls info instance data with
  | Raise errors => (Failed errors, st)
  | Ok cleaned_input =>
      let st := save cleaned_input st in
      let st := _save_m2m cls info instance cleaned_input st in
      (Done cleaned_input, st)
  end.

(** *** The errors the statements speak of *)

(** The error of [validate_attributes] for a list of offending
    attributes. *)
Definition invalid_error (offending : list Attribute) : Error :=
  mkError "Only page type attributes allowed." (Some (Value INVALID))
    [("attributes",
      GlobalIds ((λ attr, to_global_id "Attribute" (pk attr)) <$> offending))].

(** The error of [check_for_duplicates] for a set of items. *)
Definition duplicated_error (items : gset Attribute) : Error :=
  mkError "The same object cannot be in both listfor adding and removing items."
    (Some (Value DUPLICATED_INPUT_ITEM))
    [("attributes", Duplicates items)].

(** The cleaned input lacks both a slug and the field to make one from. *)
Definition lacks_slug (slugable_field : string)
    (cleaned_input : gmap string PyValue) : Prop :=
  get_text cleaned_input "slug" = None ∧
  get_text cleaned_input slugable_field = None.

(** The accumulator of a page-type cleaner after its slug step. *)
Definition slug_errors (code : Code)
    (r : Result Error (gmap string PyValue)) : gmap string (list Error) :=
  match r with
  | Ok _ => ∅
  | Raise error => append_error ∅ "slug" (set_code code error)
  end.

(** ** Properties *)

(** *** The error accumulator *)

Lemma append_error_lookup (errors : gmap string (list Error)) field error :
  append_error errors field error !! field
  = Some (default [] (errors !! field) ++ [error])%list.
Proof. unfold append_error. by rewrite lookup_insert_eq. Qed.

Lemma append_error_lookup_ne (errors : gmap string (list Error)) field error k :
  k ≠ field → append_error errors field error !! k = errors !! k.
Proof. intros Hne. unfold append_error. by rewrite lookup_insert_ne. Qed.

Lemma append_error_nonempty (errors : gmap string (list Error)) field error :
  append_error errors field error ≠ ∅.
Proof. unfold append_error. apply insert_non_empty. Qed.

Lemma wrong_kind_nil_Forall attributes :
  wrong_kind attributes = [] ↔
  Forall (λ attr, type attr = PAGE_TYPE) (default [] attributes).
Proof.
  unfold wrong_kind. induction (default [] attributes) as [|a l IH].
  - split; [constructor | done].
  - rewrite filter_cons. destruct (decide (type a ≠ PAGE_TYPE)) as [Hn | Hy].
    + split; [done | intros HF; inversion HF; done].
    + apply dec_stable in Hy. rewrite IH. split.
      * by constructor.
      * intros HF. by inversion HF.
Qed.

(** What [validate_attributes] does, by the offending attributes. *)
Lemma validate_attributes_unfold errors attributes field :
  validate_attributes errors attributes field =
  match wrong_kind attributes with
  | [] => errors
  | offending =>
      append_error errors field
        (mkError "Only page type attributes allowed." (Some (Value INVALID))
           [("attributes",
             GlobalIds ((λ attr, to_global_id "Attribute" (pk attr)) <$> offending))])
  end.
Proof.
  unfold validate_attributes, wrong_kind.
  destruct attributes as [[|a l]|]; try done.
  change (default [] (Some (a :: l))) with (a :: l).
  by destruct (filter _ (a :: l)).
Qed.

Lemma validate_attributes_all_valid errors attributes field :
  Forall (λ attr, type attr = PAGE_TYPE) (default [] attributes) →
  validate_attributes errors attributes field = errors.
Proof.
  intros HF. rewrite validate_attributes_unfold.
  apply wrong_kind_nil_Forall in HF. by rewrite HF.
Qed.

(** C3. [validate_attributes]: when some attribute of the collection is
    not of kind [PAGE_TYPE], exactly one error with code INVALID is
    appended to the accumulator under the given field name, its
    parameters being the global ids of exactly the offending attributes,
    and every other field of the accumulator is as before; when the
    collection is missing, empty or all of kind [PAGE_TYPE], the
    accumulator is returned unchanged. *)
Theorem validate_attributes_spec (errors : gmap string (list Error))
    (attributes : option (list Attribute)) (field : string) :
  (Exists (λ attr, type attr ≠ PAGE_TYPE) (default [] attributes) →
   ∃ error,
     validate_attributes errors attributes field !! field
       = Some (default [] (errors !! field) ++ [error])%list
     ∧ (∀ k, k ≠ field →
          validate_attributes errors attributes field !! k = errors !! k)
     ∧ code error = Some (Value INVALID)
     ∧ params error =
         [("attributes",
           GlobalIds ((λ attr, to_global_id "Attribute" (pk attr)) <$>
                        filter (λ attr, type attr ≠ PAGE_TYPE)
                          (default [] attributes)))])
  ∧ (Forall (λ attr, type attr = PAGE_TYPE) (default [] attributes) →
     validate_attributes errors attributes field = errors).
Proof.
  split; [|apply validate_attributes_all_valid].
  rewrite validate_attributes_unfold.
  - intros Hex. fold (wrong_kind attributes).
    destruct (wrong_kind attributes) as [|a l] eqn:Hw.
    + apply wrong_kind_nil_Forall in Hw.
      apply Exists_exists in Hex as (x & Hx & Hty).
      rewrite Forall_forall in Hw. by specialize (Hw x Hx).
    + eexists. split; [apply append_error_lookup|].
      split; [intros k Hk; by apply append_error_lookup_ne|]. done.
Qed.

(** *** The slug step *)

Lemma get_nodes_insert_ne (d : gmap string PyValue) k k' v :
  k ≠ k' → get_nodes (<[k' := v]> d) k = get_nodes d k.
Proof. intros Hne. unfold get_nodes. by rewrite lookup_insert_ne. Qed.

Lemma slug_step_nodes instance field cleaned cleaned' k :
  validate_slug_and_generate_if_needed instance field cleaned = Ok cleaned' →
  k ≠ "slug" → get_nodes cleaned' k = get_nodes cleaned k.
Proof.
  unfold validate_slug_and_generate_if_needed. intros Hv Hk.
  destruct (get_text cleaned "slug"); [by simplify_eq|].
  destruct (get_text cleaned field); simplify_eq.
  by apply get_nodes_insert_ne.
Qed.

Lemma slug_step_raises instance field cleaned :
  lacks_slug field cleaned →
  validate_slug_and_generate_if_needed instance field cleaned = Raise slug_error.
Proof.
  intros [Hs Hf]. unfold validate_slug_and_generate_if_needed.
  by rewrite Hs, Hf.
Qed.

Lemma slug_step_raises_inv instance field cleaned e :
  validate_slug_and_generate_if_needed instance field cleaned = Raise e →
  lacks_slug field cleaned ∧ e = slug_error.
Proof.
  unfold validate_slug_and_generate_if_needed, lacks_slug.
  destruct (get_text cleaned "slug"); [done|].
  destruct (get_text cleaned field); [done|]. by intros [= <-].
Qed.

(** *** The duplicate check *)

Lemma get_duplicates_ids_elem add_attributes remove_attributes a :
  a ∈ get_duplicates_ids add_attributes remove_attributes
  ↔ in_both add_attributes remove_attributes a.
Proof.
  unfold get_duplicates_ids, in_both.
  by rewrite elem_of_intersection, !elem_of_list_to_set.
Qed.

Lemma get_duplicates_ids_empty add_attributes remove_attributes :
  get_duplicates_ids add_attributes remove_attributes = ∅
  ↔ ∀ a, ¬ in_both add_attributes remove_attributes a.
Proof.
  split.
  - intros He a Ha. apply get_duplicates_ids_elem in Ha.
    rewrite He in Ha. by apply not_elem_of_empty in Ha.
  - intros Hno. apply set_eq. intros a. rewrite get_duplicates_ids_elem.
    split; [intros Ha; by apply Hno in Ha | intros Ha; by apply not_elem_of_empty in Ha].
Qed.

Lemma check_for_duplicates_unfold errors add_attributes remove_attributes :
  check_for_duplicates errors add_attributes remove_attributes =
  if decide (get_duplicates_ids add_attributes remove_attributes = ∅)
  then errors
  else append_error errors "attributes"
         (duplicated_error (get_duplicates_ids add_attributes remove_attributes)).
Proof. reflexivity. Qed.

(** *** The accumulated errors of the page-type cleaners *)

Lemma PageTypeCreate_clean_input_unfold cls info instance data cleaned :
  ModelMutation_clean_input (input_cls cls) info instance data = Ok cleaned →
  let r := validate_slug_and_generate_if_needed instance "name" cleaned in
  let errors :=
    validate_attributes (slug_errors (Value REQUIRED) r)
      (get_nodes cleaned "add_attributes") "add_attributes" in
  PageTypeCreate_clean_input cls info instance data =
  if decide (errors = ∅)
  then Ok (match r with Ok c => c | Raise _ => cleaned end)
  else Raise (ErrorDict errors).
Proof.
  intros Hbase. unfold PageTypeCreate_clean_input. rewrite Hbase.
  cbn [mbind Result_bind].
  destruct (validate_slug_and_generate_if_needed instance "name" cleaned)
    as [c|e] eqn:Hs; cbn [slug_errors]; [|done].
  by rewrite (slug_step_nodes _ _ _ _ "add_attributes" Hs).
Qed.

Lemma PageTypeUpdate_clean_input_unfold cls info instance data cleaned :
  ModelMutation_clean_input (input_cls cls) info instance data = Ok cleaned →
  let r := validate_slug_and_generate_if_needed instance "name" cleaned in
  let add_attributes := get_nodes cleaned "add_attributes" in
  let remove_attributes := get_nodes cleaned "remove_attributes" in
  let errors :=
    check_for_duplicates
      (validate_attributes
         (validate_attributes (slug_errors (Member REQUIRED) r)
            add_attributes "add_attributes")
         remove_attributes "remove_attributes")
      add_attributes remove_attributes in
  PageTypeUpdate_clean_input cls info instance data =
  if decide (errors = ∅)
  then Ok (match r with Ok c => c | Raise _ => cleaned end)
  else Raise (ErrorDict errors).
Proof.
  intros Hbase. unfold PageTypeUpdate_clean_input. rewrite Hbase.
  cbn [mbind Result_bind].
  destruct (validate_slug_and_generate_if_needed instance "name" cleaned)
    as [c|e] eqn:Hs; cbn [slug_errors]; [|done].
  rewrite (slug_step_nodes _ _ _ _ "add_attributes" Hs) by done.
  by rewrite (slug_step_nodes _ _ _ _ "remove_attributes" Hs).
Qed.

(** The four entries of the accumulator of [PageTypeUpdate], one per
    kind of violation. *)
Lemma accumulated_lookup code r add_attributes remove_attributes :
  let errors :=
    check_for_duplicates
      (validate_attributes
         (validate_attributes (slug_errors code r)
            add_attributes "add_attributes")
         remove_attributes "remove_attributes")
      add_attributes remove_attributes in
  errors !! "slug" =
    match r with Ok _ => None | Raise e => Some [set_code code e] end
  ∧ errors !! "add_attributes" =
    match wrong_kind add_attributes with
    | [] => None | l => Some [invalid_error l] end
  ∧ errors !! "remove_attributes" =
    match wrong_kind remove_attributes with
    | [] => None | l => Some [invalid_error l] end
  ∧ errors !! "attributes" =
    (if decide (get_duplicates_ids add_attributes remove_attributes = ∅)
     then None
     else Some [duplicated_error
                  (get_duplicates_ids add_attributes remove_attributes)]).
Proof.
  cbv zeta. rewrite check_for_duplicates_unfold, !validate_attributes_unfold.
  unfold slug_errors, append_error.
  destruct r, (wrong_kind add_attributes), (wrong_kind remove_attributes),
    (decide (get_duplicates_ids add_attributes remove_attributes = ∅));
    by simplify_map_eq.
Qed.

(** The two entries of the accumulator of [PageTypeCreate]. *)
Lemma accumulated_lookup_create code r add_attributes :
  let errors :=
    validate_attributes (slug_errors code r) add_attributes "add_attributes" in
  errors !! "slug" =
    match r with Ok _ => None | Raise e => Some [set_code code e] end
  ∧ errors !! "add_attributes" =
    match wrong_kind add_attributes with
    | [] => None | l => Some [invalid_error l] end.
Proof.
  cbv zeta. rewrite validate_attributes_unfold.
  unfold slug_errors, append_error.
  destruct r, (wrong_kind add_attributes); by simplify_map_eq.
Qed.

Lemma clean_input_PageTypeUpdate info instance data :
  clean_input PageTypeUpdate info instance data
  = PageTypeUpdate_clean_input PageTypeUpdate info instance data.
Proof. reflexivity. Qed.

Lemma clean_input_PageTypeCreate info instance data :
  clean_input PageTypeCreate info instance data
  = PageTypeCreate_clean_input PageTypeCreate info instance data.
Proof. reflexivity. Qed.

Lemma clean_input_PageCreate info instance data :
  clean_input PageCreate info instance data
  = PageCreate_clean_input PageCreate info instance data.
Proof. reflexivity. Qed.

Lemma PageCreate_clean_input_lacking cls info instance data cleaned :
  ModelMutation_clean_input (input_cls cls) info instance data = Ok cleaned →
  lacks_slug "title" cleaned →
  PageCreate_clean_input cls info instance data
  = Raise (ErrorDict {[ "slug" := [set_code (Member REQUIRED) slug_error] ]}).
Proof.
  intros Hbase Hl. unfold PageCreate_clean_input. rewrite Hbase.
  cbn [mbind Result_bind]. by rewrite (slug_step_raises _ _ _ Hl).
Qed.

(** C2. For the four create and update mutations: when the cleaned
    input provides neither a slug nor the field a slug is made from
    (title for pages, name for page types), cleaning the input raises a
    validation error whose dictionary holds, under the field "slug", one
    error of code REQUIRED. *)
Theorem missing_slug_is_required (cls : Mutation) (field : string)
    (info : Info) (instance : Instance) (data : Data)
    (cleaned : gmap string PyValue) :
  slug_source cls = Some field →
  ModelMutation_clean_input (input_cls cls) info instance data = Ok cleaned →
  get_text cleaned "slug" = None →
  get_text cleaned field = None →
  ∃ error_dict error,
    clean_input cls info instance data = Raise (ErrorDict error_dict)
    ∧ error_dict !! "slug" = Some [error]
    ∧ has_code REQUIRED error.
Proof.
  intros Hf Hbase Hs Hsrc.
  assert (lacks_slug field cleaned) as Hl by done.
  destruct cls; simplify_eq/=.
  - exists {[ "slug" := [set_code (Member REQUIRED) slug_error] ]}, (set_code (Member REQUIRED) slug_error).
    rewrite clean_input_PageCreate, (PageCreate_clean_input_lacking _ _ _ _ _ Hbase Hl).
    by rewrite lookup_singleton_eq.
  - exists {[ "slug" := [set_code (Member REQUIRED) slug_error] ]}, (set_code (Member REQUIRED) slug_error).
    change (clean_input PageUpdate info instance data)
      with (PageCreate_clean_input PageUpdate info instance data).
    rewrite (PageCreate_clean_input_lacking _ _ _ _ _ Hbase Hl).
    by rewrite lookup_singleton_eq.
  - rewrite clean_input_PageTypeCreate,
      (PageTypeCreate_clean_input_unfold _ _ _ _ _ Hbase).
    cbv zeta. rewrite (slug_step_raises _ _ _ Hl).
    destruct (accumulated_lookup_create (Value REQUIRED) (Raise slug_error)
                (get_nodes cleaned "add_attributes")) as [Hslug _].
    cbv zeta in Hslug.
    destruct (decide _) as [He|_].
    + rewrite He, lookup_empty in Hslug. done.
    + eexists _, _. split; [done|]. split; [exact Hslug|done].
  - rewrite clean_input_PageTypeUpdate,
      (PageTypeUpdate_clean_input_unfold _ _ _ _ _ Hbase).
    cbv zeta. rewrite (slug_step_raises _ _ _ Hl).
    destruct (accumulated_lookup (Member REQUIRED) (Raise slug_error)
                (get_nodes cleaned "add_attributes")
                (get_nodes cleaned "remove_attributes")) as [Hslug _].
    cbv zeta in Hslug.
    destruct (decide _) as [He|_].
    + rewrite He, lookup_empty in Hslug. done.
    + eexists _, _. split; [done|]. split; [exact Hslug|done].
Qed.

(** [PageTypeUpdate]: when some attribute row is listed both in
    add_attributes and in remove_attributes of the cleaned input,
    cleaning raises, and the raised dictionary holds under the key
    "attributes" exactly one error, of code DUPLICATED_INPUT_ITEM, whose
    parameters are the set of exactly the rows on both lists (the rows
    themselves, not their ids); when no row is on both lists, nothing is
    recorded under that key. *)
Theorem duplicated_input_rejected (info : Info) (instance : Instance)
    (data : Data) (cleaned : gmap string PyValue) :
  ModelMutation_clean_input (input_cls PageTypeUpdate) info instance data
    = Ok cleaned →
  let add_attributes := get_nodes cleaned "add_attributes" in
  let remove_attributes := get_nodes cleaned "remove_attributes" in
  ((∃ a, in_both add_attributes remove_attributes a) →
   ∃ error_dict error items,
     clean_input PageTypeUpdate info instance data = Raise (ErrorDict error_dict)
     ∧ error_dict !! "attributes" = Some [error]
     ∧ has_code DUPLICATED_INPUT_ITEM error
     ∧ params error = [("attributes", Duplicates items)]
     ∧ ∀ a, a ∈ items ↔ in_both add_attributes remove_attributes a)
  ∧ ((∀ a, ¬ in_both add_attributes remove_attributes a) →
     ∀ error_dict,
       clean_input PageTypeUpdate info instance data = Raise (ErrorDict error_dict) →
       error_dict !! "attributes" = None).
Proof.
  intros Hbase add_attributes remove_attributes.
  rewrite clean_input_PageTypeUpdate,
    (PageTypeUpdate_clean_input_unfold _ _ _ _ _ Hbase).
  cbv zeta. fold add_attributes remove_attributes.
  destruct (accumulated_lookup (Member REQUIRED)
              (validate_slug_and_generate_if_needed instance "name" cleaned)
              add_attributes remove_attributes) as (_ & _ & _ & Hdup).
  cbv zeta in Hdup. split.
  - intros [a Ha].
    destruct (decide (get_duplicates_ids add_attributes remove_attributes = ∅))
      as [He|Hne].
    { by destruct (proj1 (get_duplicates_ids_empty _ _) He a). }
    destruct (decide _) as [He|_].
    { rewrite He, lookup_empty in Hdup. done. }
    eexists _, _, _. split; [done|]. split; [exact Hdup|].
    split; [done|]. split; [done|]. apply get_duplicates_ids_elem.
  - intros Hno error_dict.
    destruct (decide (get_duplicates_ids add_attributes remove_attributes = ∅))
      as [He|Hne].
    2: { by destruct (Hne (proj2 (get_duplicates_ids_empty _ _) Hno)). }
    destruct (decide _) as [|_]; [done|]. by intros [= <-].
Qed.

Lemma wrong_kind_error_code offending : has_code INVALID (invalid_error offending).
Proof. done. Qed.

Lemma duplicated_error_code items :
  has_code DUPLICATED_INPUT_ITEM (duplicated_error items).
Proof. done. Qed.

Lemma lookup_Some_nonempty (errors : gmap string (list Error)) k v :
  errors !! k = Some v → errors ≠ ∅.
Proof. intros Hk ->. by rewrite lookup_empty in Hk. Qed.

(** C5. The page-type cleaners collect the violations of one input in
    one dictionary and raise it once. [PageTypeUpdate]: when the input
    lacks a slug and a name, or lists a wrong-kind attribute for adding
    or for removing, or lists an item on both lists, cleaning raises one
    dictionary that holds an error for every violation present: REQUIRED
    under "slug", INVALID under "add_attributes" and under
    "remove_attributes", DUPLICATED_INPUT_ITEM under "attributes".
    [PageTypeCreate]: the same for its two checks, slug and
    add_attributes. *)
Theorem violations_raised_together (info : Info) (instance : Instance)
    (data : Data) (cleaned : gmap string PyValue) :
  let add_attributes := get_nodes cleaned "add_attributes" in
  let remove_attributes := get_nodes cleaned "remove_attributes" in
  (ModelMutation_clean_input (input_cls PageTypeUpdate) info instance data
     = Ok cleaned →
   lacks_slug "name" cleaned ∨ wrong_kind add_attributes ≠ []
     ∨ wrong_kind remove_attributes ≠ []
     ∨ (∃ a, in_both add_attributes remove_attributes a) →
   ∃ error_dict,
     clean_input PageTypeUpdate info instance data = Raise (ErrorDict error_dict)
     ∧ (lacks_slug "name" cleaned →
        ∃ e, error_dict !! "slug" = Some [e] ∧ has_code REQUIRED e)
     ∧ (wrong_kind add_attributes ≠ [] →
        ∃ e, error_dict !! "add_attributes" = Some [e] ∧ has_code INVALID e)
     ∧ (wrong_kind remove_attributes ≠ [] →
        ∃ e, error_dict !! "remove_attributes" = Some [e] ∧ has_code INVALID e)
     ∧ ((∃ a, in_both add_attributes remove_attributes a) →
        ∃ e, error_dict !! "attributes" = Some [e]
             ∧ has_code DUPLICATED_INPUT_ITEM e))
  ∧ (ModelMutation_clean_input (input_cls PageTypeCreate) info instance data
       = Ok cleaned →
     lacks_slug "name" cleaned ∨ wrong_kind add_attributes ≠ [] →
     ∃ error_dict,
       clean_input PageTypeCreate info instance data = Raise (ErrorDict error_dict)
       ∧ (lacks_slug "name" cleaned →
          ∃ e, error_dict !! "slug" = Some [e] ∧ has_code REQUIRED e)
       ∧ (wrong_kind add_attributes ≠ [] →
          ∃ e, error_dict !! "add_attributes" = Some [e] ∧ has_code INVALID e)).
Proof.
  intros add_attributes remove_attributes. split.
  - intros Hbase Hviol.
    rewrite clean_input_PageTypeUpdate,
      (PageTypeUpdate_clean_input_unfold _ _ _ _ _ Hbase).
    cbv zeta. fold add_attributes remove_attributes.
    destruct (accumulated_lookup (Member REQUIRED)
                (validate_slug_and_generate_if_needed instance "name" cleaned)
                add_attributes remove_attributes) as (Hslug & Hadd & Hrem & Hdup).
    cbv zeta in Hslug, Hadd, Hrem, Hdup.
    set (errors := check_for_duplicates _ _ _) in *.
    assert (lacks_slug "name" cleaned →
            ∃ e, errors !! "slug" = Some [e] ∧ has_code REQUIRED e) as H1.
    { intros Hl. rewrite (slug_step_raises _ _ _ Hl) in Hslug. by eexists. }
    assert (wrong_kind add_attributes ≠ [] →
            ∃ e, errors !! "add_attributes" = Some [e] ∧ has_code INVALID e) as H2.
    { intros Hw. destruct (wrong_kind add_attributes); [done|]. by eexists. }
    assert (wrong_kind remove_attributes ≠ [] →
            ∃ e, errors !! "remove_attributes" = Some [e] ∧ has_code INVALID e) as H3.
    { intros Hw. destruct (wrong_kind remove_attributes); [done|]. by eexists. }
    assert ((∃ a, in_both add_attributes remove_attributes a) →
            ∃ e, errors !! "attributes" = Some [e]
                 ∧ has_code DUPLICATED_INPUT_ITEM e) as H4.
    { intros [a Ha]. destruct (decide _) as [He|_] in Hdup.
      - by destruct (proj1 (get_duplicates_ids_empty _ _) He a).
      - by eexists. }
    assert (errors ≠ ∅) as Hne.
    { destruct Hviol as [Hv|[Hv|[Hv|Hv]]].
      - destruct (H1 Hv) as (e & He & _). by eapply lookup_Some_nonempty.
      - destruct (H2 Hv) as (e & He & _). by eapply lookup_Some_nonempty.
      - destruct (H3 Hv) as (e & He & _). by eapply lookup_Some_nonempty.
      - destruct (H4 Hv) as (e & He & _). by eapply lookup_Some_nonempty. }
    exists errors. by rewrite decide_False.
  - intros Hbase Hviol.
    rewrite clean_input_PageTypeCreate,
      (PageTypeCreate_clean_input_unfold _ _ _ _ _ Hbase).
    cbv zeta. fold add_attributes.
    destruct (accumulated_lookup_create (Value REQUIRED)
                (validate_slug_and_generate_if_needed instance "name" cleaned)
                add_attributes) as (Hslug & Hadd).
    cbv zeta in Hslug, Hadd.
    set (errors := validate_attributes _ _ _) in *.
    assert (lacks_slug "name" cleaned →
            ∃ e, errors !! "slug" = Some [e] ∧ has_code REQUIRED e) as H1.
    { intros Hl. rewrite (slug_step_raises _ _ _ Hl) in Hslug. by eexists. }
    assert (wrong_kind add_attributes ≠ [] →
            ∃ e, errors !! "add_attributes" = Some [e] ∧ has_code INVALID e) as H2.
    { intros Hw. destruct (wrong_kind add_attributes); [done|]. by eexists. }
    assert (errors ≠ ∅) as Hne.
    { destruct Hviol as [Hv|Hv].
      - destruct (H1 Hv) as (e & He & _). by eapply lookup_Some_nonempty.
      - destruct (H2 Hv) as (e & He & _). by eapply lookup_Some_nonempty. }
    exists errors. by rewrite decide_False.
Qed.

(** *** One mutation call *)

(** C6. A mutation call whose validation raises writes nothing: when
    [clean_input] raises, the call answers with the raised errors and
    the store (saved row, relation and ORM calls) is the one it started
    from; and a call that answers with errors has left the store as it
    was. *)
Theorem failed_validation_changes_nothing (cls : Mutation) (info : Info)
    (instance : Instance) (data : Data) (st : Store) :
  (∀ errors, clean_input cls info instance data = Raise errors →
     perform_mutation cls info instance data st = (Failed errors, st))
  ∧ (∀ errors st',
       perform_mutation cls info instance data st = (Failed errors, st') →
       st' = st ∧ clean_input cls info instance data = Raise errors).
Proof.
  unfold perform_mutation. split.
  - by intros errors ->.
  - intros errors st'. destruct (clean_input cls info instance data); [done|].
    by intros [= -> ->].
Qed.

Lemma page_attributes_add_elem attributes st a :
  a ∈ attributes → pk a ∈ page_attributes (page_attributes_add attributes st).
Proof.
  intros Ha. unfold page_attributes_add. cbn [page_attributes].
  apply elem_of_union_r, elem_of_list_to_set, list_elem_of_fmap. by exists a.
Qed.

(** C8. [PageTypeCreate]: when the slug step succeeds and every
    attribute of add_attributes is of kind [PAGE_TYPE], the call
    succeeds; when add_attributes is supplied, the one step after the
    generic ones is an add of the listed attributes to the relation, so
    each of them is related to the page type afterwards; when
    add_attributes is absent, the store is the one the generic steps
    left and no call on the relation is made. *)
Theorem PageTypeCreate_adds_attributes (info : Info) (instance : Instance)
    (data : Data) (st : Store) (cleaned cleaned' : gmap string PyValue) :
  ModelMutation_clean_input (input_cls PageTypeCreate) info instance data
    = Ok cleaned →
  validate_slug_and_generate_if_needed instance "name" cleaned = Ok cleaned' →
  Forall (λ attr, type attr = PAGE_TYPE)
    (default [] (get_nodes cleaned "add_attributes")) →
  let st0 := ModelMutation_save_m2m info instance cleaned' (save cleaned' st) in
  ∃ st',
    perform_mutation PageTypeCreate info instance data st = (Done cleaned', st')
    ∧ (∀ attributes,
         get_nodes cleaned "add_attributes" = Some attributes →
         st' = page_attributes_add attributes st0
         ∧ ∀ a, a ∈ attributes → pk a ∈ page_attributes st')
    ∧ (get_nodes cleaned "add_attributes" = None → st' = st0).
Proof.
  intros Hbase Hslug Hkind st0. unfold perform_mutation.
  rewrite clean_input_PageTypeCreate,
    (PageTypeCreate_clean_input_unfold _ _ _ _ _ Hbase).
  cbv zeta. rewrite Hslug. cbn [slug_errors].
  rewrite (validate_attributes_all_valid ∅ _ "add_attributes" Hkind).
  rewrite decide_True by done.
  change (_save_m2m PageTypeCreate info instance cleaned' (save cleaned' st))
    with (PageTypeCreate_save_m2m PageTypeCreate info instance cleaned'
            (save cleaned' st)).
  unfold PageTypeCreate_save_m2m. fold st0.
  rewrite (slug_step_nodes _ _ _ _ "add_attributes" Hslug) by done.
  eexists. split; [done|]. split.
  - intros attributes ->. split; [done|].
    intros a Ha. by apply page_attributes_add_elem.
  - by intros ->.
Qed.

(** C9. [PageTypeUpdate._save_m2m] works from the add list only. When
    add_attributes is supplied, the step after the generic one removes
    the attributes of the add list from the relation and then adds the
    same attributes, whatever remove_attributes holds; when
    remove_attributes is supplied and add_attributes is not, neither
    call is made and the store is the one the generic step left, so the
    relation is as it was before the step whenever the generic step
    keeps it. *)
Theorem PageTypeUpdate_save_m2m_uses_add_list (cls : Mutation) (info : Info)
    (instance : Instance) (cleaned_data : gmap string PyValue) (st : Store) :
  let st0 := ModelMutation_save_m2m info instance cleaned_data st in
  let st' := PageTypeUpdate_save_m2m cls info instance cleaned_data st in
  (∀ add_attributes,
     get_nodes cleaned_data "add_attributes" = Some add_attributes →
     st' = page_attributes_add add_attributes
             (page_attributes_remove add_attributes st0)
     ∧ calls st' = (calls st0 ++ [RelatedRemove (pk <$> add_attributes);
                                  RelatedAdd (pk <$> add_attributes)])%list
     ∧ page_attributes st'
       = page_attributes st0 ∪ list_to_set (pk <$> add_attributes))
  ∧ (∀ remove_attributes,
       get_nodes cleaned_data "remove_attributes" = Some remove_attributes →
       get_nodes cleaned_data "add_attributes" = None →
       st' = st0
       ∧ (page_attributes st0 = page_attributes st →
          page_attributes st' = page_attributes st)).
Proof.
  intros st0 st'. subst st'. unfold PageTypeUpdate_save_m2m. fold st0. split.
  - intros add_attributes ->. split; [done|]. split.
    + cbn [page_attributes_add page_attributes_remove calls].
      by rewrite <- app_assoc.
    + cbn [page_attributes_add page_attributes_remove page_attributes].
      apply difference_union_L.
  - by intros remove_attributes _ ->.
Qed.

(** C10. [PageUpdate] defines no cleaner of its own and declares the
    input type of [PageCreate], so on every request its cleaning is the
    cleaning of [PageCreate]: same cleaned input, same raised errors. In
    particular a missing slug is generated from the title, a request
    with neither raises REQUIRED under "slug", and the SEO fields are
    cleaned by the same call. *)
Theorem PageUpdate_cleans_as_PageCreate (info : Info) (instance : Instance)
    (data : Data) :
  clean_input PageUpdate info instance data
    = clean_input PageCreate info instance data
  ∧ ∀ cleaned,
      ModelMutation_clean_input (input_cls PageUpdate) info instance data
        = Ok cleaned →
      get_text cleaned "slug" = None →
      (∀ title, get_text cleaned "title" = Some title →
         clean_input PageUpdate info instance data
         = Ok (clean_seo_fields
                 (<["slug" := PyStr (generate_unique_slug instance title)]>
                    cleaned)))
      ∧ (get_text cleaned "title" = None →
         ∃ error,
           clean_input PageUpdate info instance data
             = Raise (ErrorDict {[ "slug" := [error] ]})
           ∧ has_code REQUIRED error).
Proof.
  split; [reflexivity|].
  intros cleaned Hbase Hslug.
  change (clean_input PageUpdate info instance data)
    with (PageCreate_clean_input PageUpdate info instance data).
  split.
  - intros title Ht. unfold PageCreate_clean_input. rewrite Hbase.
    cbn [mbind Result_bind]. unfold validate_slug_and_generate_if_needed.
    by rewrite Hslug, Ht.
  - intros Ht. eexists. split.
    + by apply (PageCreate_clean_input_lacking _ _ _ _ cleaned).
    + done.
Qed.

(** ** Further properties of the cleaners and the save steps *)

(** *** What the checks leave in the accumulator *)

Lemma validate_attributes_lookup_ne errors attributes field k :
  k ≠ field → validate_attributes errors attributes field !! k = errors !! k.
Proof.
  intros Hk. rewrite validate_attributes_unfold.
  destruct (wrong_kind attributes); [done|]. by apply append_error_lookup_ne.
Qed.

Lemma check_for_duplicates_lookup_ne errors add_attributes remove_attributes k :
  k ≠ "attributes" →
  check_for_duplicates errors add_attributes remove_attributes !! k
  = errors !! k.
Proof.
  intros Hk. rewrite check_for_duplicates_unfold.
  destruct (decide _); [done|]. by apply append_error_lookup_ne.
Qed.

Lemma append_error_keeps (errors : gmap string (list Error)) field error k l :
  errors !! k = Some l →
  ∃ l', append_error errors field error !! k = Some (l ++ l')%list
        ∧ (length l' ≤ 1)%nat.
Proof.
  intros Hk. destruct (decide (k = field)) as [->|Hne].
  - rewrite append_error_lookup, Hk. exists [error]. split; [done|]. simpl. lia.
  - rewrite append_error_lookup_ne by done. exists []. rewrite app_nil_r.
    split; [done|]. simpl. lia.
Qed.

(** Neither check drops or rewrites an error that is already in the
    accumulator: under every field, the errors recorded before a call of
    [validate_attributes] or of [check_for_duplicates] are still there
    after it, in the same order, followed by at most one new error. *)
Theorem recorded_errors_are_kept (errors : gmap string (list Error))
    (attributes add_attributes remove_attributes : option (list Attribute))
    (field k : string) (l : list Error) :
  errors !! k = Some l →
  (∃ l', validate_attributes errors attributes field !! k = Some (l ++ l')%list
         ∧ (length l' ≤ 1)%nat)
  ∧ (∃ l', check_for_duplicates errors add_attributes remove_attributes !! k
           = Some (l ++ l')%list
           ∧ (length l' ≤ 1)%nat).
Proof.
  intros Hk. split.
  - rewrite validate_attributes_unfold. destruct (wrong_kind attributes).
    + exists []. rewrite app_nil_r. split; [done|]. simpl. lia.
    + by apply append_error_keeps.
  - rewrite check_for_duplicates_unfold. destruct (decide _).
    + exists []. rewrite app_nil_r. split; [done|]. simpl. lia.
    + by apply append_error_keeps.
Qed.

Lemma slug_errors_lookup_ne code r k :
  k ≠ "slug" → slug_errors code r !! k = None.
Proof.
  intros Hk. destruct r; cbn [slug_errors]; [apply lookup_empty|].
  rewrite append_error_lookup_ne by done. apply lookup_empty.
Qed.

Lemma accumulated_lookup_other code r add_attributes remove_attributes k :
  k ≠ "slug" → k ≠ "add_attributes" → k ≠ "remove_attributes" →
  k ≠ "attributes" →
  check_for_duplicates
    (validate_attributes
       (validate_attributes (slug_errors code r)
          add_attributes "add_attributes")
       remove_attributes "remove_attributes")
    add_attributes remove_attributes !! k = None.
Proof.
  intros H1 H2 H3 H4.
  rewrite check_for_duplicates_lookup_ne by done.
  rewrite !validate_attributes_lookup_ne by done.
  by apply slug_errors_lookup_ne.
Qed.

Lemma accumulated_lookup_create_other code r add_attributes k :
  k ≠ "slug" → k ≠ "add_attributes" →
  validate_attributes (slug_errors code r) add_attributes "add_attributes" !! k
  = None.
Proof.
  intros H1 H2. rewrite validate_attributes_lookup_ne by done.
  by apply slug_errors_lookup_ne.
Qed.

(** *** When the page-type cleaners accept *)

(** [PageTypeUpdate.clean_input] returns exactly when the slug step
    returns, every attribute listed for adding and for removing is of
    kind [PAGE_TYPE] and no item is on both lists; what it returns is
    the dictionary the slug step returned. *)
Theorem PageTypeUpdate_clean_input_accepts (info : Info) (instance : Instance)
    (data : Data) (cleaned cleaned' : gmap string PyValue) :
  ModelMutation_clean_input (input_cls PageTypeUpdate) info instance data
    = Ok cleaned →
  let add_attributes := get_nodes cleaned "add_attributes" in
  let remove_attributes := get_nodes cleaned "remove_attributes" in
  clean_input PageTypeUpdate info instance data = Ok cleaned'
  ↔ validate_slug_and_generate_if_needed instance "name" cleaned = Ok cleaned'
    ∧ Forall (λ attr, type attr = PAGE_TYPE) (default [] add_attributes)
    ∧ Forall (λ attr, type attr = PAGE_TYPE) (default [] remove_attributes)
    ∧ ∀ a, ¬ in_both add_attributes remove_attributes a.
Proof.
  intros Hbase add_attributes remove_attributes.
  rewrite clean_input_PageTypeUpdate,
    (PageTypeUpdate_clean_input_unfold _ _ _ _ _ Hbase).
  cbv zeta. fold add_attributes remove_attributes. split.
  - destruct (accumulated_lookup (Member REQUIRED)
                (validate_slug_and_generate_if_needed instance "name" cleaned)
                add_attributes remove_attributes) as (Hs & Ha & Hr & Hd).
    cbv zeta in Hs, Ha, Hr, Hd.
    destruct (decide (check_for_duplicates _ _ _ = ∅)) as [He|]; [|done].
    intros [= Hc]. rewrite He, lookup_empty in Hs, Ha, Hr, Hd.
    destruct (validate_slug_and_generate_if_needed instance "name" cleaned);
      [|done].
    subst. split; [done|].
    split; [apply wrong_kind_nil_Forall; by destruct (wrong_kind add_attributes)|].
    split; [apply wrong_kind_nil_Forall; by destruct (wrong_kind remove_attributes)|].
    apply get_duplicates_ids_empty. by destruct (decide _) in Hd.
  - intros (Hs & Ha & Hr & Hno). rewrite Hs. cbn [slug_errors].
    rewrite !validate_attributes_all_valid by done.
    rewrite check_for_duplicates_unfold.
    rewrite (decide_True (P := get_duplicates_ids _ _ = ∅))
      by (by apply get_duplicates_ids_empty).
    by rewrite decide_True.
Qed.

(** [PageTypeCreate.clean_input] returns exactly when the slug step
    returns and every attribute listed for adding is of kind
    [PAGE_TYPE]; a "remove_attributes" entry plays no part. What it
    returns is the dictionary the slug step returned. *)
Theorem PageTypeCreate_clean_input_accepts (info : Info) (instance : Instance)
    (data : Data) (cleaned cleaned' : gmap string PyValue) :
  ModelMutation_clean_input (input_cls PageTypeCreate) info instance data
    = Ok cleaned →
  clean_input PageTypeCreate info instance data = Ok cleaned'
  ↔ validate_slug_and_generate_if_needed instance "name" cleaned = Ok cleaned'
    ∧ Forall (λ attr, type attr = PAGE_TYPE)
        (default [] (get_nodes cleaned "add_attributes")).
Proof.
  intros Hbase.
  rewrite clean_input_PageTypeCreate,
    (PageTypeCreate_clean_input_unfold _ _ _ _ _ Hbase).
  cbv zeta. split.
  - destruct (accumulated_lookup_create (Value REQUIRED)
                (validate_slug_and_generate_if_needed instance "name" cleaned)
                (get_nodes cleaned "add_attributes")) as (Hs & Ha).
    cbv zeta in Hs, Ha.
    destruct (decide (validate_attributes _ _ _ = ∅)) as [He|]; [|done].
    intros [= Hc]. rewrite He, lookup_empty in Hs, Ha.
    destruct (validate_slug_and_generate_if_needed instance "name" cleaned);
      [|done].
    subst. split; [done|]. apply wrong_kind_nil_Forall.
    by destruct (wrong_kind (get_nodes cleaned "add_attributes")).
  - intros (Hs & Ha). rewrite Hs. cbn [slug_errors].
    rewrite validate_attributes_all_valid by done. by rewrite decide_True.
Qed.

(** *** The shape of what the page-type cleaners raise *)

(** When the generic cleaner has returned, whatever
    [PageTypeUpdate.clean_input] raises is a non-empty dictionary whose
    fields are among "slug", "add_attributes", "remove_attributes" and
    "attributes", with exactly one error under each field it has. *)
Theorem PageTypeUpdate_raises_one_error_per_field (info : Info)
    (instance : Instance) (data : Data) (cleaned : gmap string PyValue)
    (raised : ValidationError) :
  ModelMutation_clean_input (input_cls PageTypeUpdate) info instance data
    = Ok cleaned →
  clean_input PageTypeUpdate info instance data = Raise raised →
  ∃ error_dict,
    raised = ErrorDict error_dict
    ∧ error_dict ≠ ∅
    ∧ ∀ k l, error_dict !! k = Some l →
        k ∈ ["slug"; "add_attributes"; "remove_attributes"; "attributes"]
        ∧ length l = 1%nat.
Proof.
  intros Hbase.
  rewrite clean_input_PageTypeUpdate,
    (PageTypeUpdate_clean_input_unfold _ _ _ _ _ Hbase).
  cbv zeta.
  set (r := validate_slug_and_generate_if_needed instance "name" cleaned).
  set (add := get_nodes cleaned "add_attributes").
  set (remove := get_nodes cleaned "remove_attributes").
  destruct (accumulated_lookup (Member REQUIRED) r add remove)
    as (Hs & Ha & Hr & Hd).
  pose proof (accumulated_lookup_other (Member REQUIRED) r add remove) as Ho.
  cbv zeta in Hs, Ha, Hr, Hd.
  destruct (decide (check_for_duplicates _ _ _ = ∅)) as [|Hne]; [done|].
  intros [= <-].
  eexists. split; [done|]. split; [done|]. intros k l Hk.
  destruct (decide (k = "slug")) as [->|H1].
  { split; [by repeat first [apply list_elem_of_here | apply list_elem_of_further]|]. rewrite Hs in Hk. destruct r; by simplify_eq. }
  destruct (decide (k = "add_attributes")) as [->|H2].
  { split; [by repeat first [apply list_elem_of_here | apply list_elem_of_further]|]. rewrite Ha in Hk.
    destruct (wrong_kind add); by simplify_eq. }
  destruct (decide (k = "remove_attributes")) as [->|H3].
  { split; [by repeat first [apply list_elem_of_here | apply list_elem_of_further]|]. rewrite Hr in Hk.
    destruct (wrong_kind remove); by simplify_eq. }
  destruct (decide (k = "attributes")) as [->|H4].
  { split; [by repeat first [apply list_elem_of_here | apply list_elem_of_further]|]. rewrite Hd in Hk.
    destruct (decide _); by simplify_eq. }
  rewrite (Ho k) in Hk by done. done.
Qed.

(** When the generic cleaner has returned, whatever
    [PageTypeCreate.clean_input] raises is a non-empty dictionary whose
    fields are among "slug" and "add_attributes", with exactly one error
    under each field it has: it never reports under "remove_attributes"
    or "attributes". *)
Theorem PageTypeCreate_raises_one_error_per_field (info : Info)
    (instance : Instance) (data : Data) (cleaned : gmap string PyValue)
    (raised : ValidationError) :
  ModelMutation_clean_input (input_cls PageTypeCreate) info instance data
    = Ok cleaned →
  clean_input PageTypeCreate info instance data = Raise raised →
  ∃ error_dict,
    raised = ErrorDict error_dict
    ∧ error_dict ≠ ∅
    ∧ ∀ k l, error_dict !! k = Some l →
        k ∈ ["slug"; "add_attributes"] ∧ length l = 1%nat.
Proof.
  intros Hbase.
  rewrite clean_input_PageTypeCreate,
    (PageTypeCreate_clean_input_unfold _ _ _ _ _ Hbase).
  cbv zeta.
  set (r := validate_slug_and_generate_if_needed instance "name" cleaned).
  set (add := get_nodes cleaned "add_attributes").
  destruct (accumulated_lookup_create (Value REQUIRED) r add) as (Hs & Ha).
  pose proof (accumulated_lookup_create_other (Value REQUIRED) r add) as Ho.
  cbv zeta in Hs, Ha.
  destruct (decide (validate_attributes _ _ _ = ∅)) as [|Hne]; [done|].
  intros [= <-].
  eexists. split; [done|]. split; [done|]. intros k l Hk.
  destruct (decide (k = "slug")) as [->|H1].
  { split; [by repeat first [apply list_elem_of_here | apply list_elem_of_further]|]. rewrite Hs in Hk. destruct r; by simplify_eq. }
  destruct (decide (k = "add_attributes")) as [->|H2].
  { split; [by repeat first [apply list_elem_of_here | apply list_elem_of_further]|]. rewrite Ha in Hk.
    destruct (wrong_kind add); by simplify_eq. }
  rewrite (Ho k) in Hk by done. done.
Qed.

(** *** Errors of the generic cleaner and of the slug step *)

(** An error raised by the generic cleaner is not caught: for the two
    page mutations and the two page-type mutations, cleaning raises that
    very error, and neither the slug step nor the attribute checks add
    to it. *)
Theorem generic_cleaner_error_is_raised_unchanged (cls : Mutation)
    (info : Info) (instance : Instance) (data : Data)
    (raised : ValidationError) :
  cls ≠ PageDelete →
  ModelMutation_clean_input (input_cls cls) info instance data = Raise raised →
  clean_input cls info instance data = Raise raised.
Proof.
  intros Hcls Hbase. destruct cls; [| | done | |].
  - rewrite clean_input_PageCreate. unfold PageCreate_clean_input.
    by rewrite Hbase.
  - change (clean_input PageUpdate info instance data)
      with (PageCreate_clean_input PageUpdate info instance data).
    unfold PageCreate_clean_input. by rewrite Hbase.
  - rewrite clean_input_PageTypeCreate. unfold PageTypeCreate_clean_input.
    by rewrite Hbase.
  - rewrite clean_input_PageTypeUpdate. unfold PageTypeUpdate_clean_input.
    by rewrite Hbase.
Qed.

(** When the slug step raises, the error recorded under "slug" is the
    raised error itself with its code overwritten: message and
    parameters are kept. [PageTypeCreate] stores the value of REQUIRED,
    the three other mutations store the enum member. For the page
    mutations the raised dictionary has no other field. *)
Theorem slug_error_is_reused (cls : Mutation) (field : string) (info : Info)
    (instance : Instance) (data : Data) (cleaned : gmap string PyValue)
    (e : Error) :
  slug_source cls = Some field →
  ModelMutation_clean_input (input_cls cls) info instance data = Ok cleaned →
  validate_slug_and_generate_if_needed instance field cleaned = Raise e →
  ∃ error_dict error,
    clean_input cls info instance data = Raise (ErrorDict error_dict)
    ∧ error_dict !! "slug" = Some [error]
    ∧ message error = message e
    ∧ params error = params e
    ∧ code error
      = Some (if decide (cls = PageTypeCreate) then Value REQUIRED
              else Member REQUIRED)
    ∧ (cls = PageCreate ∨ cls = PageUpdate →
       error_dict = {[ "slug" := [error] ]}).
Proof.
  intros Hf Hbase Hraise. destruct cls; simplify_eq/=.
  - rewrite clean_input_PageCreate. unfold PageCreate_clean_input.
    rewrite Hbase. cbn [mbind Result_bind]. rewrite Hraise.
    eexists _, _. split; [done|]. by rewrite lookup_singleton_eq.
  - change (clean_input PageUpdate info instance data)
      with (PageCreate_clean_input PageUpdate info instance data).
    unfold PageCreate_clean_input.
    rewrite Hbase. cbn [mbind Result_bind]. rewrite Hraise.
    eexists _, _. split; [done|]. by rewrite lookup_singleton_eq.
  - rewrite clean_input_PageTypeCreate,
      (PageTypeCreate_clean_input_unfold _ _ _ _ _ Hbase).
    cbv zeta. rewrite Hraise.
    destruct (accumulated_lookup_create (Value REQUIRED) (Raise e)
                (get_nodes cleaned "add_attributes")) as [Hslug _].
    cbv zeta in Hslug.
    destruct (decide (validate_attributes _ _ _ = ∅)) as [He|_].
    + rewrite He, lookup_empty in Hslug. done.
    + eexists _, _. split; [done|]. split; [exact Hslug|].
      split; [done|]. split; [done|]. split; [done|]. by intros [|].
  - rewrite clean_input_PageTypeUpdate,
      (PageTypeUpdate_clean_input_unfold _ _ _ _ _ Hbase).
    cbv zeta. rewrite Hraise.
    destruct (accumulated_lookup (Member REQUIRED) (Raise e)
                (get_nodes cleaned "add_attributes")
                (get_nodes cleaned "remove_attributes")) as [Hslug _].
    cbv zeta in Hslug.
    destruct (decide (check_for_duplicates _ _ _ = ∅)) as [He|_].
    + rewrite He, lookup_empty in Hslug. done.
    + eexists _, _. split; [done|]. split; [exact Hslug|].
      split; [done|]. split; [done|]. split; [done|]. by intros [|].
Qed.

(** *** What the save steps do to the relation *)

(** Whatever the mutation and the cleaned data, the save step after the
    generic one never takes an attribute out of the relation, relates
    nothing but attributes of the add list, leaves the saved row alone
    and only appends to the ORM calls made so far. *)
Theorem save_m2m_only_adds_listed_attributes (cls : Mutation) (info : Info)
    (instance : Instance) (cleaned_data : gmap string PyValue) (st : Store) :
  let st0 := ModelMutation_save_m2m info instance cleaned_data st in
  let st' := _save_m2m cls info instance cleaned_data st in
  (∀ x, x ∈ page_attributes st0 → x ∈ page_attributes st')
  ∧ (∀ x, x ∈ page_attributes st' →
       x ∈ page_attributes st0
       ∨ ∃ a, a ∈ default [] (get_nodes cleaned_data "add_attributes")
              ∧ pk a = x)
  ∧ saved st' = saved st0
  ∧ calls st0 `prefix_of` calls st'.
Proof.
  intros st0 st'. subst st'.
  assert (∀ (l : list Attribute) x,
            x ∈ (list_to_set (pk <$> l) : gset Z) → ∃ a, a ∈ l ∧ pk a = x)
    as Hpk.
  { intros l x Hx. apply elem_of_list_to_set, list_elem_of_fmap in Hx.
    destruct Hx as (a & -> & Ha). by exists a. }
  destruct cls.
  1-3: change (_save_m2m _ info instance cleaned_data st) with st0;
       split; [done|]; split; [by left|]; done.
  - change (_save_m2m PageTypeCreate info instance cleaned_data st)
      with (PageTypeCreate_save_m2m PageTypeCreate info instance
              cleaned_data st).
    unfold PageTypeCreate_save_m2m. fold st0.
    destruct (get_nodes cleaned_data "add_attributes") as [l|];
      [|split; [done|]; split; [by left|]; done].
    cbn [page_attributes_add page_attributes saved calls default].
    split; [intros x Hx; by apply elem_of_union_l|].
    split; [|split; [done|by apply prefix_app_r]].
    intros x [Hx|Hx]%elem_of_union; [by left|right; by apply Hpk].
  - change (_save_m2m PageTypeUpdate info instance cleaned_data st)
      with (PageTypeUpdate_save_m2m PageTypeUpdate info instance
              cleaned_data st).
    unfold PageTypeUpdate_save_m2m. fold st0.
    destruct (get_nodes cleaned_data "add_attributes") as [l|];
      [|split; [done|]; split; [by left|]; done].
    cbn [page_attributes_add page_attributes_remove page_attributes saved
         calls default].
    rewrite difference_union_L.
    split; [intros x Hx; by apply elem_of_union_l|].
    split; [|split; [done|by do 2 apply prefix_app_r]].
    intros x [Hx|Hx]%elem_of_union; [by left|right; by apply Hpk].
Qed.

(** On the relation and on the saved row, the save step of
    [PageTypeUpdate] does what the save step of [PageTypeCreate] does:
    the attributes of the add list join the relation and nothing leaves
    it, whatever the remove list holds. *)
Theorem PageTypeUpdate_relates_as_PageTypeCreate (cls cls' : Mutation)
    (info : Info) (instance : Instance) (cleaned_data : gmap string PyValue)
    (st : Store) :
  page_attributes (PageTypeUpdate_save_m2m cls info instance cleaned_data st)
  = page_attributes (PageTypeCreate_save_m2m cls' info instance cleaned_data st)
  ∧ saved (PageTypeUpdate_save_m2m cls info instance cleaned_data st)
    = saved (PageTypeCreate_save_m2m cls' info instance cleaned_data st).
Proof.
  unfold PageTypeUpdate_save_m2m, PageTypeCreate_save_m2m.
  destruct (get_nodes cleaned_data "add_attributes") as [l|]; [|done].
  cbn [page_attributes_add page_attributes_remove page_attributes saved].
  by rewrite difference_union_L.
Qed.

End Mutations.

(** ** The declared arguments *)

(** C7. The [id] argument of [PageTypeUpdate] is declared without
    [required=True], so its schema type is the nullable [ID], while the
    [id] arguments of [PageUpdate] and [PageDelete] are declared
    required and have the type [ID!]. *)
Theorem PageTypeUpdate_id_is_nullable :
  id_schema_type PageTypeUpdate = Some ID
  ∧ id_schema_type PageUpdate = Some (NonNull ID)
  ∧ id_schema_type PageDelete = Some (NonNull ID).
Proof. by repeat split. Qed.

(** ** The mutations on concrete requests *)

Local Abbreviation sample_clean_input :=
  (clean_input Sample.to_global_id Sample.generate_unique_slug
     Sample.slug_error Sample.clean_seo_fields Sample.generic_clean_input).

Local Abbreviation sample_perform_mutation :=
  (perform_mutation Sample.to_global_id Sample.generate_unique_slug
     Sample.slug_error Sample.clean_seo_fields Sample.generic_clean_input
     Sample.generic_save_m2m).

(** C1. A validated update that lists attribute 1 for removal, on a page
    type related to attribute 1: the call succeeds, makes no call on the
    relation and leaves attribute 1 related, where removing the listed
    attributes and then adding the listed ones leaves the relation
    empty. *)
Theorem PageTypeUpdate_keeps_attribute_listed_for_removal :
  let result :=
    sample_perform_mutation PageTypeUpdate () () Sample.remove_attr_1
      Sample.store_1 in
  result.1 = Done (<["slug" := PyStr "FAQ"]> Sample.remove_attr_1)
  ∧ page_attributes result.2 = {[ 1%Z ]}
  ∧ calls result.2 = [Save]
  ∧ page_attributes
      (PageTypeUpdate_save_m2m_described Sample.generic_save_m2m
         PageTypeUpdate () () (<["slug" := PyStr "FAQ"]> Sample.remove_attr_1)
         (save (<["slug" := PyStr "FAQ"]> Sample.remove_attr_1) Sample.store_1))
    = ∅.
Proof. vm_compute. by repeat split. Qed.

(** C4. An update that lists attribute 1 both for adding and for
    removing is rejected with exactly one error of code
    DUPLICATED_INPUT_ITEM under "attributes", but the parameters of that
    error are the attribute rows found on both lists, here the row of
    attribute 1 with its kind, and not a list of ids: no list of ids is
    what the error carries, where [validate_attributes] reports the
    global ids of the rows it rejects. *)
Theorem duplicated_error_carries_rows_not_ids :
  ∃ error,
    sample_clean_input PageTypeUpdate () () Sample.add_and_remove_attr_1
      = Raise (ErrorDict {[ "attributes" := [error] ]})
    ∧ has_code DUPLICATED_INPUT_ITEM error
    ∧ params error
      = [("attributes", Duplicates {[ mkAttribute 1 PAGE_TYPE ]})]
    ∧ ∀ ids, params error ≠ [("attributes", GlobalIds ids)].
Proof.
  exists (duplicated_error ({[ Sample.attr_1 ]} : gset Attribute)).
  split; [vm_compute; reflexivity|].
  split; [reflexivity|]. split; [reflexivity|].
  intros ids Hids. discriminate Hids.
Qed.

Lemma missing_slug_is_required_witness :
  slug_source PageTypeUpdate = Some "name"
  ∧ get_text Sample.no_slug_no_source "slug" = None
  ∧ get_text Sample.no_slug_no_source "name" = None
  ∧ ∃ error_dict error,
      sample_clean_input PageTypeUpdate () () Sample.no_slug_no_source
        = Raise (ErrorDict error_dict)
      ∧ error_dict !! "slug" = Some [error]
      ∧ has_code REQUIRED error.
Proof.
  split; [reflexivity|]. split; [reflexivity|]. split; [reflexivity|].
  apply (missing_slug_is_required Sample.to_global_id
           Sample.generate_unique_slug Sample.slug_error
           Sample.clean_seo_fields Sample.generic_clean_input
           PageTypeUpdate "name" () () Sample.no_slug_no_source
           Sample.no_slug_no_source); reflexivity.
Defined.

Lemma validate_attributes_spec_witness :
  (Exists (λ attr, type attr ≠ PAGE_TYPE) [Sample.attr_1; Sample.attr_7]
   ∧ ∃ error,
       validate_attributes Sample.to_global_id ∅
         (Some [Sample.attr_1; Sample.attr_7]) "add_attributes"
         !! "add_attributes" = Some [error]
       ∧ code error = Some (Value INVALID)
       ∧ params error = [("attributes", GlobalIds ["Attribute:7"])])
  ∧ (Forall (λ attr, type attr = PAGE_TYPE) [Sample.attr_1; Sample.attr_2]
     ∧ validate_attributes Sample.to_global_id ∅
         (Some [Sample.attr_1; Sample.attr_2]) "add_attributes" = ∅).
Proof.
  assert (Exists (λ attr, type attr ≠ PAGE_TYPE)
            [Sample.attr_1; Sample.attr_7]) as Hex.
  { apply Exists_cons_tl, Exists_cons_hd. vm_compute. discriminate. }
  assert (Forall (λ attr, type attr = PAGE_TYPE)
            [Sample.attr_1; Sample.attr_2]) as Hall.
  { repeat constructor. }
  split; split; [exact Hex | | exact Hall |].
  - destruct (proj1 (validate_attributes_spec Sample.to_global_id ∅
                       (Some [Sample.attr_1; Sample.attr_7]) "add_attributes")
                Hex) as (error & Hlookup & _ & Hcode & Hparams).
    exists error. split; [exact Hlookup|]. split; [exact Hcode|exact Hparams].
  - exact (proj2 (validate_attributes_spec Sample.to_global_id ∅
                    (Some [Sample.attr_1; Sample.attr_2]) "add_attributes")
             Hall).
Defined.

Lemma duplicated_input_rejected_witness :
  (in_both (Some [Sample.attr_1]) (Some [Sample.attr_1]) Sample.attr_1
   ∧ ∃ error_dict error items,
       sample_clean_input PageTypeUpdate () () Sample.add_and_remove_attr_1
         = Raise (ErrorDict error_dict)
       ∧ error_dict !! "attributes" = Some [error]
       ∧ has_code DUPLICATED_INPUT_ITEM error
       ∧ params error = [("attributes", Duplicates items)]
       ∧ ∀ a, a ∈ items ↔
              in_both (Some [Sample.attr_1]) (Some [Sample.attr_1]) a)
  ∧ ((∀ a, ¬ in_both (Some [Sample.attr_1]) (Some [Sample.attr_2]) a)
     ∧ ∀ error_dict,
         sample_clean_input PageTypeUpdate () () Sample.add_1_remove_2
           = Raise (ErrorDict error_dict) →
         error_dict !! "attributes" = None).
Proof.
  assert (in_both (Some [Sample.attr_1]) (Some [Sample.attr_1]) Sample.attr_1)
    as Hboth.
  { split; apply list_elem_of_singleton; reflexivity. }
  assert (∀ a, ¬ in_both (Some [Sample.attr_1]) (Some [Sample.attr_2]) a)
    as Hnone.
  { intros a [H1 H2]. apply list_elem_of_singleton in H1, H2.
    rewrite H1 in H2. discriminate. }
  split; split; [exact Hboth | | exact Hnone |].
  - apply (proj1 (duplicated_input_rejected Sample.to_global_id
                    Sample.generate_unique_slug Sample.slug_error
                    Sample.clean_seo_fields Sample.generic_clean_input
                    () () Sample.add_and_remove_attr_1
                    Sample.add_and_remove_attr_1 eq_refl)).
    exists Sample.attr_1. exact Hboth.
  - apply (proj2 (duplicated_input_rejected Sample.to_global_id
                    Sample.generate_unique_slug Sample.slug_error
                    Sample.clean_seo_fields Sample.generic_clean_input
                    () () Sample.add_1_remove_2
                    Sample.add_1_remove_2 eq_refl)).
    exact Hnone.
Defined.

Lemma violations_raised_together_witness :
  lacks_slug "name" Sample.all_wrong
  ∧ wrong_kind (Some [Sample.attr_1; Sample.attr_7]) ≠ []
  ∧ in_both (Some [Sample.attr_1; Sample.attr_7]) (Some [Sample.attr_1])
      Sample.attr_1
  ∧ (∃ error_dict,
       sample_clean_input PageTypeUpdate () () Sample.all_wrong
         = Raise (ErrorDict error_dict)
       ∧ (∃ e, error_dict !! "slug" = Some [e] ∧ has_code REQUIRED e)
       ∧ (∃ e, error_dict !! "add_attributes" = Some [e] ∧ has_code INVALID e)
       ∧ (∃ e, error_dict !! "attributes" = Some [e]
               ∧ has_code DUPLICATED_INPUT_ITEM e))
  ∧ (∃ error_dict,
       sample_clean_input PageTypeCreate () () Sample.all_wrong
         = Raise (ErrorDict error_dict)
       ∧ (∃ e, error_dict !! "slug" = Some [e] ∧ has_code REQUIRED e)
       ∧ (∃ e, error_dict !! "add_attributes" = Some [e] ∧ has_code INVALID e)).
Proof.
  assert (lacks_slug "name" Sample.all_wrong) as Hslug.
  { split; reflexivity. }
  assert (wrong_kind (Some [Sample.attr_1; Sample.attr_7]) ≠ []) as Hkind.
  { vm_compute. discriminate. }
  assert (in_both (Some [Sample.attr_1; Sample.attr_7]) (Some [Sample.attr_1])
            Sample.attr_1) as Hboth.
  { split; [apply list_elem_of_here | apply list_elem_of_singleton; reflexivity]. }
  split; [exact Hslug|]. split; [exact Hkind|]. split; [exact Hboth|].
  pose proof (violations_raised_together Sample.to_global_id
                Sample.generate_unique_slug Sample.slug_error
                Sample.clean_seo_fields Sample.generic_clean_input
                () () Sample.all_wrong Sample.all_wrong) as [Hupdate Hcreate].
  split.
  - destruct (Hupdate eq_refl (or_introl Hslug))
      as (error_dict & Hraise & H1 & H2 & _ & H4).
    exists error_dict. split; [exact Hraise|].
    split; [exact (H1 Hslug)|]. split; [exact (H2 Hkind)|].
    apply H4. exists Sample.attr_1. exact Hboth.
  - destruct (Hcreate eq_refl (or_introl Hslug))
      as (error_dict & Hraise & H1 & H2).
    exists error_dict. split; [exact Hraise|].
    split; [exact (H1 Hslug)|exact (H2 Hkind)].
Defined.

Lemma failed_validation_changes_nothing_witness :
  sample_perform_mutation PageTypeUpdate () () Sample.add_and_remove_attr_1
    Sample.store_1
  = (Failed
       (ErrorDict
          {[ "attributes" :=
               [duplicated_error ({[ Sample.attr_1 ]} : gset Attribute)] ]}),
     Sample.store_1).
Proof.
  apply (proj1 (failed_validation_changes_nothing Sample.to_global_id
                  Sample.generate_unique_slug Sample.slug_error
                  Sample.clean_seo_fields Sample.generic_clean_input
                  Sample.generic_save_m2m PageTypeUpdate () ()
                  Sample.add_and_remove_attr_1 Sample.store_1)).
  vm_compute. reflexivity.
Defined.

Lemma PageTypeCreate_adds_attributes_witness :
  ∃ st',
    sample_perform_mutation PageTypeCreate () () Sample.faq_with_attr_1
      Sample.store_0
    = (Done (<["slug" := PyStr "FAQ"]> Sample.faq_with_attr_1), st')
    ∧ (∀ attributes,
         get_nodes Sample.faq_with_attr_1 "add_attributes" = Some attributes →
         st' = page_attributes_add attributes
                 (save (<["slug" := PyStr "FAQ"]> Sample.faq_with_attr_1)
                    Sample.store_0)
         ∧ ∀ a, a ∈ attributes → pk a ∈ page_attributes st')
    ∧ (get_nodes Sample.faq_with_attr_1 "add_attributes" = None →
       st' = save (<["slug" := PyStr "FAQ"]> Sample.faq_with_attr_1)
               Sample.store_0).
Proof.
  apply (PageTypeCreate_adds_attributes Sample.to_global_id
           Sample.generate_unique_slug Sample.slug_error
           Sample.clean_seo_fields Sample.generic_clean_input
           Sample.generic_save_m2m () () Sample.faq_with_attr_1 Sample.store_0
           Sample.faq_with_attr_1
           (<["slug" := PyStr "FAQ"]> Sample.faq_with_attr_1)).
  - reflexivity.
  - vm_compute. reflexivity.
  - repeat constructor.
Defined.

Lemma PageTypeUpdate_save_m2m_uses_add_list_witness :
  (page_attributes
     (PageTypeUpdate_save_m2m Sample.generic_save_m2m PageTypeUpdate () ()
        Sample.add_1_remove_2 Sample.store_12)
   = {[ 1%Z; 2%Z ]} ∪ list_to_set [1%Z]
   ∧ calls
       (PageTypeUpdate_save_m2m Sample.generic_save_m2m PageTypeUpdate () ()
          Sample.add_1_remove_2 Sample.store_12)
     = [RelatedRemove [1%Z]; RelatedAdd [1%Z]])
  ∧ PageTypeUpdate_save_m2m Sample.generic_save_m2m PageTypeUpdate () ()
      Sample.remove_attr_1 Sample.store_1
    = Sample.store_1.
Proof.
  split.
  - destruct (proj1 (PageTypeUpdate_save_m2m_uses_add_list
                       Sample.generic_save_m2m PageTypeUpdate () ()
                       Sample.add_1_remove_2 Sample.store_12)
                [Sample.attr_1] eq_refl) as (_ & Hcalls & Hrel).
    split; [exact Hrel|exact Hcalls].
  - exact (proj1 (proj2 (PageTypeUpdate_save_m2m_uses_add_list
                           Sample.generic_save_m2m PageTypeUpdate () ()
                           Sample.remove_attr_1 Sample.store_1)
                    [Sample.attr_1] eq_refl eq_refl)).
Defined.

Lemma PageUpdate_cleans_as_PageCreate_witness :
  sample_clean_input PageUpdate () () Sample.titled
  = Ok (<["slug" := PyStr "About"]> Sample.titled)
  ∧ ∃ error,
      sample_clean_input PageUpdate () () Sample.no_slug_no_source
      = Raise (ErrorDict {[ "slug" := [error] ]})
      ∧ has_code REQUIRED error.
Proof.
  split.
  - exact (proj1 (proj2 (PageUpdate_cleans_as_PageCreate Sample.to_global_id
                           Sample.generate_unique_slug Sample.slug_error
                           Sample.clean_seo_fields Sample.generic_clean_input
                           () () Sample.titled)
                    Sample.titled eq_refl eq_refl) "About" eq_refl).
  - exact (proj2 (proj2 (PageUpdate_cleans_as_PageCreate Sample.to_global_id
                           Sample.generate_unique_slug Sample.slug_error
                           Sample.clean_seo_fields Sample.generic_clean_input
                           () () Sample.no_slug_no_source)
                    Sample.no_slug_no_source eq_refl eq_refl) eq_refl).
Defined.

(** ** The further properties on concrete requests *)

Lemma recorded_errors_are_kept_witness :
  ({[ "add_attributes" := [Sample.slug_error] ]} : gmap string (list Error))
    !! "add_attributes" = Some [Sample.slug_error]
  ∧ (∃ l',
       validate_attributes Sample.to_global_id
         {[ "add_attributes" := [Sample.slug_error] ]}
         (Some [Sample.attr_7]) "add_attributes" !! "add_attributes"
       = Some ([Sample.slug_error] ++ l')%list
       ∧ (length l' ≤ 1)%nat)
  ∧ (∃ l',
       check_for_duplicates {[ "add_attributes" := [Sample.slug_error] ]}
         (Some [Sample.attr_1]) (Some [Sample.attr_1]) !! "add_attributes"
       = Some ([Sample.slug_error] ++ l')%list
       ∧ (length l' ≤ 1)%nat).
Proof.
  split; [reflexivity|].
  exact (recorded_errors_are_kept Sample.to_global_id
           {[ "add_attributes" := [Sample.slug_error] ]}
           (Some [Sample.attr_7]) (Some [Sample.attr_1]) (Some [Sample.attr_1])
           "add_attributes" "add_attributes" [Sample.slug_error] eq_refl).
Defined.

Lemma PageTypeUpdate_clean_input_accepts_witness :
  sample_clean_input PageTypeUpdate () () Sample.add_1_remove_2
  = Ok (<["slug" := PyStr "FAQ"]> Sample.add_1_remove_2).
Proof.
  pose proof (PageTypeUpdate_clean_input_accepts Sample.to_global_id
                Sample.generate_unique_slug Sample.slug_error
                Sample.clean_seo_fields Sample.generic_clean_input
                () () Sample.add_1_remove_2 Sample.add_1_remove_2
                (<["slug" := PyStr "FAQ"]> Sample.add_1_remove_2) eq_refl)
    as Hiff.
  cbv zeta in Hiff. apply (proj2 Hiff).
  split; [vm_compute; reflexivity|].
  split; [repeat constructor|]. split; [repeat constructor|].
  intros a [H1 H2]. apply list_elem_of_singleton in H1, H2.
  rewrite H1 in H2. discriminate.
Defined.

Lemma PageTypeCreate_clean_input_accepts_witness :
  sample_clean_input PageTypeCreate () () Sample.faq_with_attr_1
  = Ok (<["slug" := PyStr "FAQ"]> Sample.faq_with_attr_1).
Proof.
  apply (proj2 (PageTypeCreate_clean_input_accepts Sample.to_global_id
                  Sample.generate_unique_slug Sample.slug_error
                  Sample.clean_seo_fields Sample.generic_clean_input
                  () () Sample.faq_with_attr_1 Sample.faq_with_attr_1
                  (<["slug" := PyStr "FAQ"]> Sample.faq_with_attr_1) eq_refl)).
  split; [vm_compute; reflexivity|repeat constructor].
Defined.

Lemma PageTypeUpdate_raises_one_error_per_field_witness :
  ∃ raised error_dict,
    sample_clean_input PageTypeUpdate () () Sample.all_wrong = Raise raised
    ∧ raised = ErrorDict error_dict
    ∧ error_dict ≠ ∅
    ∧ ∀ k l, error_dict !! k = Some l →
        k ∈ ["slug"; "add_attributes"; "remove_attributes"; "attributes"]
        ∧ length l = 1%nat.
Proof.
  destruct (sample_clean_input PageTypeUpdate () () Sample.all_wrong)
    as [c|raised] eqn:Hc.
  { vm_compute in Hc. discriminate Hc. }
  destruct (PageTypeUpdate_raises_one_error_per_field Sample.to_global_id
              Sample.generate_unique_slug Sample.slug_error
              Sample.clean_seo_fields Sample.generic_clean_input
              () () Sample.all_wrong Sample.all_wrong raised eq_refl Hc)
    as (error_dict & Hd).
  exists raised, error_dict. split; [reflexivity|exact Hd].
Defined.

Lemma PageTypeCreate_raises_one_error_per_field_witness :
  ∃ raised error_dict,
    sample_clean_input PageTypeCreate () () Sample.all_wrong = Raise raised
    ∧ raised = ErrorDict error_dict
    ∧ error_dict ≠ ∅
    ∧ ∀ k l, error_dict !! k = Some l →
        k ∈ ["slug"; "add_attributes"] ∧ length l = 1%nat.
Proof.
  destruct (sample_clean_input PageTypeCreate () () Sample.all_wrong)
    as [c|raised] eqn:Hc.
  { vm_compute in Hc. discriminate Hc. }
  destruct (PageTypeCreate_raises_one_error_per_field Sample.to_global_id
              Sample.generate_unique_slug Sample.slug_error
              Sample.clean_seo_fields Sample.generic_clean_input
              () () Sample.all_wrong Sample.all_wrong raised eq_refl Hc)
    as (error_dict & Hd).
  exists raised, error_dict. split; [reflexivity|exact Hd].
Defined.

Lemma generic_cleaner_error_is_raised_unchanged_witness :
  PageTypeUpdate ≠ PageDelete
  ∧ clean_input Sample.to_global_id Sample.generate_unique_slug
      Sample.slug_error Sample.clean_seo_fields
      (λ _ (_ _ : unit) (_ : gmap string PyValue),
         Raise (Single Sample.slug_error))
      PageTypeUpdate () () Sample.all_wrong
    = Raise (Single Sample.slug_error).
Proof.
  assert (PageTypeUpdate ≠ PageDelete) as Hcls by discriminate.
  split; [exact Hcls|].
  exact (generic_cleaner_error_is_raised_unchanged Sample.to_global_id
           Sample.generate_unique_slug Sample.slug_error
           Sample.clean_seo_fields
           (λ _ (_ _ : unit) (_ : gmap string PyValue),
              Raise (Single Sample.slug_error))
           PageTypeUpdate () () Sample.all_wrong (Single Sample.slug_error)
           Hcls eq_refl).
Defined.

Lemma slug_error_is_reused_witness :
  ∃ error_dict error,
    sample_clean_input PageTypeCreate () () Sample.no_slug_no_source
      = Raise (ErrorDict error_dict)
    ∧ error_dict !! "slug" = Some [error]
    ∧ message error = "This field is required."
    ∧ params error = []
    ∧ code error = Some (Value REQUIRED)
    ∧ (PageTypeCreate = PageCreate ∨ PageTypeCreate = PageUpdate →
       error_dict = {[ "slug" := [error] ]}).
Proof.
  exact (slug_error_is_reused Sample.to_global_id
           Sample.generate_unique_slug Sample.slug_error
           Sample.clean_seo_fields Sample.generic_clean_input
           PageTypeCreate "name" () () Sample.no_slug_no_source
           Sample.no_slug_no_source Sample.slug_error
           eq_refl eq_refl eq_refl).
Defined.

Lemma save_m2m_only_adds_listed_attributes_witness :
  (2%Z ∈ page_attributes Sample.store_12
   ∧ 2%Z ∈ page_attributes
            (_save_m2m Sample.generic_save_m2m PageTypeUpdate () ()
               Sample.add_1_remove_2 Sample.store_12))
  ∧ saved (_save_m2m Sample.generic_save_m2m PageTypeUpdate () ()
             Sample.add_1_remove_2 Sample.store_12)
    = saved Sample.store_12.
Proof.
  assert (2%Z ∈ page_attributes Sample.store_12) as H2.
  { apply elem_of_union_r, elem_of_singleton. reflexivity. }
  pose proof (save_m2m_only_adds_listed_attributes Sample.generic_save_m2m
                PageTypeUpdate () () Sample.add_1_remove_2 Sample.store_12)
    as Hsave.
  cbv zeta in Hsave. destruct Hsave as (Hkeep & _ & Hsaved & _).
  split; [split; [exact H2|exact (Hkeep 2%Z H2)]|exact Hsaved].
Defined.
